(** * The hypertrophy logbook: route actions and form components

    A shallow embedding of the route code of the application:

    - the sign-in route ([schema], [action]): schema validation of the
      submitted form, the credential check, and the branch on the user's
      subscription;
    - the root [ErrorBoundary] of [app/root.tsx];
    - the folder card of the training index ([Folder]) with its debounced
      notes form;
    - the exercise fieldset of the mesocycle designer ([ExerciseFieldset])
      with its "Add set" control.

    A Rocq string stands for the UTF-8 encoding of a JavaScript string
    (form data holds well-formed Unicode text); the JavaScript [length] of
    a string, which counts UTF-16 code units, is [js_length].  HTTP status
    codes are integers.  JavaScript objects used as dictionaries (the
    [error] record of a submission, the headers of a response) are finite
    maps keyed by strings. *)

From Stdlib Require Import ZArith Lia Bool Ascii String.
From stdpp Require Import base option list strings pretty gmap.

Local Open Scope string_scope.
Local Open Scope list_scope.

(** ** The framework's response helpers

  [json] and [redirect] come from the web framework
  ([@remix-run/server-runtime]).  They are modelled here with the behaviour
  the framework documents: [json] answers 200 unless the init says
  otherwise; [redirect] answers 302 unless the init gives a status, and
  sets the [Location] header. *)
Module Http.

Record ResponseInit := {
  init_status : option Z;
  init_headers : gmap string string
}.

(** [{ status: n }] *)
Definition with_status (n : Z) : ResponseInit :=
  {| init_status := Some n; init_headers := ∅ |}.

(** [{ headers: h }] *)
Definition with_headers (h : gmap string string) : ResponseInit :=
  {| init_status := None; init_headers := h |}.

Record Response (Data : Type) := {
  status : Z;
  headers : gmap string string;
  body : option Data
}.
Arguments status {Data} _.
Arguments headers {Data} _.
Arguments body {Data} _.

Definition default_status : Z := 200.
Definition default_redirect_status : Z := 302.

Definition json {Data : Type} (data : Data) (init : ResponseInit) : Response Data :=
  {| status := default default_status (init_status init);
     headers :=
       match init_headers init !! "Content-Type" with
       | Some _ => init_headers init
       | None => <["Content-Type" := "application/json; charset=utf-8"]> (init_headers init)
       end;
     body := Some data |}.

Definition redirect {Data : Type} (url : string) (init : ResponseInit) : Response Data :=
  {| status := default default_redirect_status (init_status init);
     headers := <["Location" := url]> (init_headers init);
     body := None |}.

(** The status codes the framework treats as redirects. *)
Definition is_redirect_status (n : Z) : bool :=
  (n =? 301)%Z || (n =? 302)%Z || (n =? 303)%Z || (n =? 307)%Z || (n =? 308)%Z.

Definition is_redirect {Data : Type} (r : Response Data) : bool :=
  is_redirect_status (status r).

End Http.

(** ** The sign-in route *)
Module SignIn.
Import Http.

(** *** Form data and the validation schema *)

(** What the schema sees under one field name of the submitted form: no
    entry, one text entry, or something that is not a string (an uploaded
    file, several entries under the same name). *)
Inductive FieldValue :=
| Absent
| Text (s : string)
| NotText.

(** The submitted form: the optional intent entry and the two fields the
    schema reads. *)
Record FormData := {
  fd_intent : option string;
  fd_email : FieldValue;
  fd_password : FieldValue
}.

(** One check of a string schema, with its message. *)
Inductive Check :=
| CMin (n : nat) (message : string)
| CMax (n : nat) (message : string)
| CEmail (message : string).

(** [z.string({ invalid_type_error, required_error })] with its checks in
    the order they were chained. *)
Record ZodString := {
  invalid_type_error : string;
  required_error : string;
  checks : list Check
}.

Definition z_string (invalid_type required : string) : ZodString :=
  {| invalid_type_error := invalid_type; required_error := required; checks := [] |}.

Definition add_check (c : Check) (z : ZodString) : ZodString :=
  {| invalid_type_error := invalid_type_error z;
     required_error := required_error z;
     checks := checks z ++ [c] |}.

Definition z_min (n : nat) (message : string) := add_check (CMin n message).
Definition z_max (n : nat) (message : string) := add_check (CMax n message).
Definition z_email (message : string) := add_check (CEmail message).

(** [schema.email] *)
Definition schema_email : ZodString :=
  z_email "Email is not valid."
    (z_max 254 "Email must be at most 254 characters long."
       (z_min 1 "Email is required."
          (z_string "Email is not valid." "Email is required."))).

(** [schema.password] *)
Definition schema_password : ZodString :=
  z_max 128 "Password must be at most 128 characters long."
    (z_min 8 "Password must be at least 8 characters long."
       (z_string "Password is not valid." "Password is required.")).

(** [type Schema = z.infer<typeof schema>] *)
Record Schema := {
  email : string;
  password : string
}.

(** [submission.error] is keyed by field name ([email], [password]) or by
    [form]. *)
Record Submission := {
  intent : string;
  payload : FormData;
  value : option Schema;
  error : gmap string string
}.

(** The UTF-16 code units of the character a UTF-8 byte begins: none for
    a continuation byte, two (a surrogate pair) for the first byte of a
    four-byte sequence, one otherwise. *)
Definition utf16_units (b : ascii) : nat :=
  let n := nat_of_ascii b in
  if (n <? 128)%nat then 1%nat
  else if (n <? 192)%nat then 0%nat
  else if (n <? 240)%nat then 1%nat
  else 2%nat.

(** [s.length]: the number of UTF-16 code units of the string. *)
Fixpoint js_length (s : string) : nat :=
  match s with
  | EmptyString => 0%nat
  | String b s' => (utf16_units b + js_length s')%nat
  end.

Section Validation.

(** The well-formedness test behind [.email(...)]; it belongs to the
    validation library. *)
Variable is_email : string -> bool.

Definition check_ok (c : Check) (s : string) : bool :=
  match c with
  | CMin n _ => (n <=? js_length s)%nat
  | CMax n _ => (js_length s <=? n)%nat
  | CEmail _ => is_email s
  end.

Definition check_message (c : Check) : string :=
  match c with
  | CMin _ m | CMax _ m | CEmail m => m
  end.

(** The messages a string schema reports for a field value, in order.
    All checks run; none stops the others. *)
Definition issues (z : ZodString) (v : FieldValue) : list string :=
  match v with
  | Absent => [required_error z]
  | NotText => [invalid_type_error z]
  | Text s =>
      check_message <$> List.filter (fun c => negb (check_ok c s)) (checks z)
  end.

(** The first message of a field is the one kept under its name. *)
Definition keep_first (name : string) (messages : list string)
    (e : gmap string string) : gmap string string :=
  match head messages with
  | Some m => <[name := m]> e
  | None => e
  end.

(** [parse(formData, { schema })] on a form whose entries make up the
    payload as they are, which is every form whose intent is not a list
    intent: the intent defaults to [submit]; the value is present exactly
    when the schema reports no issue.  What [parse] does with a list intent
    before the schema runs, and its failure there, is in [SignInRoute]. *)
Definition parse (formData : FormData) : Submission :=
  let email_issues := issues schema_email (fd_email formData) in
  let password_issues := issues schema_password (fd_password formData) in
  {| intent := default "submit" (fd_intent formData);
     payload := formData;
     value :=
       match fd_email formData, fd_password formData, email_issues, password_issues with
       | Text e, Text p, [], [] => Some {| email := e; password := p |}
       | _, _, _, _ => None
       end;
     error := keep_first "password" password_issues (keep_first "email" email_issues ∅) |}.

End Validation.

(** *** Collaborators and their effects *)

(** The user [verifyLogin] returns.  The action reads these four fields;
    [subscription] and [stripeCustomerId] may be null. *)
Record User {Subscription : Type} := {
  user_id : string;
  user_email : string;
  user_subscription : option Subscription;
  user_stripeCustomerId : option string
}.
Arguments User : clear implicits.

(** The request: its form data, and the cookie header the session code
    reads. *)
Record Request := {
  req_formData : FormData;
  req_cookie : option string
}.

(** One entry per call the action makes to a collaborator. *)
Inductive Event :=
| EvVerifyLogin (email password : string)
| EvGenerateId
| EvCreateStripeCheckoutSession (userId email cancelUrl : string) (customerId : option string)
| EvCreateUserSession (userId : string)
| EvCommitSession.



(** What lies outside the route: the world the collaborators read and
    write ([World]: the user table, the payment processor, the session
    store), and the collaborators themselves, each a function of the world. *)
Record Env {World Session Subscription : Type} := {
  is_email : string -> bool;
  (* configRoutes.appRoot, configRoutes.auth.signIn *)
  appRoot : string;
  signIn : string;
  verifyLogin : string -> string -> World -> option (User Subscription) * World;
  generateId : World -> string * World;
  createStripeCheckoutSession :
    string -> string -> string -> option string -> World -> string * World;
  createUserSession : Request -> string -> World -> Session * World;
  commitSession : Session -> World -> string * World
}.
Arguments Env : clear implicits.

(** The state an action runs in: the world and the calls made so far. *)
Record State {World : Type} := {
  world : World;
  trace : list Event
}.
Arguments State : clear implicits.

Definition initial {World : Type} (w : World) : State World :=
  {| world := w; trace := [] |}.

(** The state monad of an action. *)
Definition M (World A : Type) : Type := State World -> A * State World.

Definition ret {World A : Type} (a : A) : M World A := fun st => (a, st).

Definition bind {World A B : Type} (m : M World A) (k : A -> M World B) : M World B :=
  fun st => let r := m st in k r.1 r.2.

(** Calling a collaborator: it runs on the world and the call is recorded. *)
Definition call {World A : Type} (ev : Event) (f : World -> A * World) : M World A :=
  fun st =>
    let r := f (world st) in
    (r.1, {| world := r.2; trace := trace st ++ [ev] |}).

Notation "'let*' x ':=' c 'in' k" := (bind c (fun x => k))
  (at level 10, x name, c at level 100, k at level 200).

(** *** The action *)

Definition invalid_credentials_message : string :=
  "You have entered an invalid email or password.".

(** [submission.error[key] = message] *)
Definition set_error (key message : string) (submission : Submission) : Submission :=
  {| intent := intent submission;
     payload := payload submission;
     value := value submission;
     error := <[key := message]> (error submission) |}.

Section Action.

Context {World Session Subscription : Type}.
Variable env : Env World Session Subscription.

(** The action on a request whose form [parse] takes as it is (see
    [parse]); [SignInRoute.action] is the action on every request.  The
    guard [!submission.value || submission.intent !== "submit"] is the
    match on the value followed by the test of the intent: both arms answer
    with the submission and status 400.  The arguments of
    [createStripeCheckoutSession] are evaluated before the call, so
    [generateId] runs first. *)
Definition action (request : Request) : M World (Response Submission) :=
  let formData := req_formData request in
  let submission := parse (is_email env) formData in
  match value submission with
  | None => ret (json submission (with_status 400))
  | Some credentials =>
      if negb (String.eqb (intent submission) "submit")
      then ret (json submission (with_status 400))
      else
        let* user :=
          call (EvVerifyLogin (email credentials) (password credentials))
               (verifyLogin env (email credentials) (password credentials)) in
        match user with
        | None =>
            ret (json (set_error "form" invalid_credentials_message submission)
                      (with_status 400))
        | Some user =>
            match user_subscription user with
            | None =>
                let* canceled_id := call EvGenerateId (generateId env) in
                let cancelUrl := signIn env +:+ "?canceled_id=" +:+ canceled_id in
                let* sessionUrl :=
                  call (EvCreateStripeCheckoutSession (user_id user) (user_email user)
                          cancelUrl (user_stripeCustomerId user))
                       (createStripeCheckoutSession env (user_id user) (user_email user)
                          cancelUrl (user_stripeCustomerId user)) in
                ret (redirect sessionUrl (with_status 303))
            | Some _ =>
                let* userSession :=
                  call (EvCreateUserSession (user_id user))
                       (createUserSession env request (user_id user)) in
                let* cookie := call EvCommitSession (commitSession env userSession) in
                ret (redirect (appRoot env) (with_headers {[ "Set-Cookie" := cookie ]}))
            end
        end
  end.

(** The collaborators' answers along the paths of the action, from the
    world [w] the credential check leaves behind. *)
Definition verified (c : Schema) (st : State World) : option (User Subscription) * World :=
  verifyLogin env (email c) (password c) (world st).

Definition checkout_cancelUrl (w : World) : string :=
  signIn env +:+ "?canceled_id=" +:+ (generateId env w).1.

Definition checkout (user : User Subscription) (w : World) : string * World :=
  createStripeCheckoutSession env (user_id user) (user_email user)
    (checkout_cancelUrl w) (user_stripeCustomerId user) (generateId env w).2.

Definition session (request : Request) (user : User Subscription) (w : World) : Session * World :=
  createUserSession env request (user_id user) w.

Definition cookie (request : Request) (user : User Subscription) (w : World) : string * World :=
  commitSession env (session request user w).1 (session request user w).2.

(** The four ways through the action, each with the response it returns
    and the state it leaves. *)
Inductive ActionCase (request : Request) (st : State World) :
    Response Submission * State World -> Prop :=
| case_rejected :
    value (parse (is_email env) (req_formData request)) = None \/
    intent (parse (is_email env) (req_formData request)) <> "submit" ->
    ActionCase request st
      (json (parse (is_email env) (req_formData request)) (with_status 400), st)
| case_unverified c :
    value (parse (is_email env) (req_formData request)) = Some c ->
    intent (parse (is_email env) (req_formData request)) = "submit" ->
    (verified c st).1 = None ->
    ActionCase request st
      (json (set_error "form" invalid_credentials_message
               (parse (is_email env) (req_formData request)))
            (with_status 400),
       {| world := (verified c st).2;
          trace := trace st ++ [EvVerifyLogin (email c) (password c)] |})
| case_checkout c user :
    value (parse (is_email env) (req_formData request)) = Some c ->
    intent (parse (is_email env) (req_formData request)) = "submit" ->
    (verified c st).1 = Some user ->
    user_subscription user = None ->
    ActionCase request st
      (redirect (checkout user (verified c st).2).1 (with_status 303),
       {| world := (checkout user (verified c st).2).2;
          trace := trace st ++
            [EvVerifyLogin (email c) (password c);
             EvGenerateId;
             EvCreateStripeCheckoutSession (user_id user) (user_email user)
               (checkout_cancelUrl (verified c st).2) (user_stripeCustomerId user)] |})
| case_session c user subscription :
    value (parse (is_email env) (req_formData request)) = Some c ->
    intent (parse (is_email env) (req_formData request)) = "submit" ->
    (verified c st).1 = Some user ->
    user_subscription user = Some subscription ->
    ActionCase request st
      (redirect (appRoot env)
         (with_headers {[ "Set-Cookie" := (cookie request user (verified c st).2).1 ]}),
       {| world := (cookie request user (verified c st).2).2;
          trace := trace st ++
            [EvVerifyLogin (email c) (password c);
             EvCreateUserSession (user_id user);
             EvCommitSession] |}).

End Action.

(** A redirect to [url]. *)
Definition redirects_to {Data : Type} (url : string) (r : Response Data) : Prop :=
  is_redirect r = true /\ headers r !! "Location" = Some url.

(** A user session was created during the run. *)
Definition creates_user_session (tr : list Event) : Prop :=
  exists userId, In (EvCreateUserSession userId) tr.

(** A checkout session was created during the run. *)
Definition creates_checkout_session (tr : list Event) : Prop :=
  exists userId userEmail cancelUrl customerId,
    In (EvCreateStripeCheckoutSession userId userEmail cancelUrl customerId) tr.


Section Outcomes.

Context {World Session Subscription : Type}.
Variable env : Env World Session Subscription.
Variable request : Request.
Variable w : World.

(** The action signs [user] in: it creates and commits a session for the
    user and redirects to the app root with the committed session as
    cookie. *)
Definition signed_in (c : Schema) (user : User Subscription) : Prop :=
  let r := action env request (initial w) in
  trace r.2 =
    [EvVerifyLogin (email c) (password c);
     EvCreateUserSession (user_id user);
     EvCommitSession] /\
  redirects_to (appRoot env) r.1 /\
  headers r.1 !! "Set-Cookie" = Some (cookie env request user (verified env c (initial w)).2).1 /\
  world r.2 = (cookie env request user (verified env c (initial w)).2).2.

(** The action sends [user] to the checkout: it creates a checkout session
    and redirects with status 303 to the URL it got back, and creates no
    user session. *)
Definition sent_to_checkout (c : Schema) (user : User Subscription) : Prop :=
  let r := action env request (initial w) in
  trace r.2 =
    [EvVerifyLogin (email c) (password c);
     EvGenerateId;
     EvCreateStripeCheckoutSession (user_id user) (user_email user)
       (checkout_cancelUrl env (verified env c (initial w)).2)
       (user_stripeCustomerId user)] /\
  status r.1 = 303%Z /\
  headers r.1 !! "Location" = Some (checkout env user (verified env c (initial w)).2).1 /\
  headers r.1 !! "Set-Cookie" = None /\
  ~ creates_user_session (trace r.2) /\
  world r.2 = (checkout env user (verified env c (initial w)).2).2.

(** The action turns the credentials down: status 400, and the submission
    comes back with the one form-level message. *)
Definition credentials_rejected : Prop :=
  let r := action env request (initial w) in
  status r.1 = 400%Z /\
  body r.1 =
    Some (set_error "form" invalid_credentials_message
            (parse (is_email env) (req_formData request))) /\
  error <$> body r.1 = Some {[ "form" := invalid_credentials_message ]}.

End Outcomes.

End SignIn.


(** ** The root error boundary ([app/root.tsx]) *)
Module Root.

(** What [useRouteError] gives the boundary: a route error response, for
    which [isRouteErrorResponse] holds, or any other thrown value. *)
Inductive RouteError :=
| ErrorResponse (status : Z) (statusText : string) (data : string)
| Thrown (message : string).

(** The [action] of every page is a [BackLink]. *)
Record BackLink := {
  to : string;
  children : string
}.

(** The props of [ErrorPage]. *)
Record ErrorPage := {
  statusCode : Z;
  title : string;
  subtitle : string;
  action : BackLink
}.

(** [ErrorDoc] wraps its children in a document titled [Oh no...]. *)
Record Document := {
  doc_title : string;
  doc_children : ErrorPage
}.

Definition ErrorDoc (page : ErrorPage) : Document :=
  {| doc_title := "Oh no..."; doc_children := page |}.

(** [console.error] lines. *)
Inductive LogLine :=
| CaughtRouteError (error : RouteError)
| UncaughtError (error : RouteError).

(** Rendering either produces a document or throws. *)
Inductive Outcome :=
| Rendered (doc : Document)
| Throws (message : string).

Definition dquote : string := String (Ascii.ascii_of_nat 34) EmptyString.

Definition back_to_home : BackLink := {| to := "/"; children := "Back to home" |}.

Definition not_found_page (status : Z) (pathname : string) : ErrorPage :=
  {| statusCode := status;
     title := "Page not found";
     subtitle := dquote +:+ pathname +:+ dquote +:+ " is not a page. So sorry.";
     action := back_to_home |}.

Definition failure_page (status : Z) (pathname : string) : ErrorPage :=
  {| statusCode := status;
     title := "Oh no, something did not go well.";
     subtitle := dquote +:+ pathname +:+ dquote +:+ " is currently not working. So sorry.";
     action := back_to_home |}.

Definition ErrorBoundary (error : RouteError) (pathname : string) : list LogLine * Outcome :=
  match error with
  | ErrorResponse status _ _ =>
      ([CaughtRouteError error],
       if (status =? 404)%Z then Rendered (ErrorDoc (not_found_page status pathname))
       else if negb (status =? 500)%Z then Rendered (ErrorDoc (failure_page status pathname))
       else Throws ("Unhandled error: " +:+ pretty status))
  | Thrown _ =>
      ([UncaughtError error], Rendered (ErrorDoc (failure_page 500 pathname)))
  end.

(** The boundary shows a page with this status code, title and subtitle,
    and the link back home. *)
Definition renders (o : Outcome) (code : Z) (page_title page_subtitle : string) : Prop :=
  exists doc,
    o = Rendered doc /\
    statusCode (doc_children doc) = code /\
    title (doc_children doc) = page_title /\
    subtitle (doc_children doc) = page_subtitle /\
    action (doc_children doc) = back_to_home.

(** The generic error page of a route error, as the three cases name it:
    "Page not found" for 404, the failure page otherwise. *)
Definition renders_generic_page (error : RouteError) (pathname : string) : Prop :=
  match error with
  | ErrorResponse status _ _ =>
      if (status =? 404)%Z
      then renders (ErrorBoundary error pathname).2 status "Page not found"
             (dquote +:+ pathname +:+ dquote +:+ " is not a page. So sorry.")
      else renders (ErrorBoundary error pathname).2 status "Oh no, something did not go well."
             (dquote +:+ pathname +:+ dquote +:+ " is currently not working. So sorry.")
  | Thrown _ =>
      renders (ErrorBoundary error pathname).2 500 "Oh no, something did not go well."
        (dquote +:+ pathname +:+ dquote +:+ " is currently not working. So sorry.")
  end.

End Root.

(** ** The folder card of the training index ([folder.tsx]) *)
Module TrainIndex.

(** The options [Folder] hands to [useDebouncedSubmit]. *)
Record SubmitOptions := {
  preventScrollReset : bool;
  replace : bool
}.

(** The callback [useDebouncedSubmit] hands back.  It belongs to the form
    the hook was given, named here by the form's id, and carries the
    hook's options. *)
Record DebouncedSubmit := {
  submit_target : string;
  submit_with : SubmitOptions
}.

(** The notes [Form] as the card renders it: the props written on it, the
    id that [updateFolderNotesForm.props] gives it, and its change
    handler. *)
Record NotesForm := {
  form_id : string;
  form_method : string;
  form_replace : bool;
  form_preventScrollReset : bool;
  form_onChange : DebouncedSubmit
}.

(** [useForm({ id: "update-folder-notes", ... })] *)
Definition updateFolderNotesForm : string := "update-folder-notes".

(** [const submit = useDebouncedSubmit(updateFolderNotesForm.ref.current,
    { preventScrollReset: true, replace: true })] *)
Definition submit : DebouncedSubmit :=
  {| submit_target := updateFolderNotesForm;
     submit_with := {| preventScrollReset := true; replace := true |} |}.

(** The notes form of the card.  It sits in the disclosure panel, which is
    mounted only while the card is open, and is rendered only for a folder
    that has notes ([folder.notes ? <Form ...> : null]). *)
Definition Folder (notes : option string) (open : bool) : option NotesForm :=
  if open
  then match notes with
       | Some (String _ _) =>
           Some {| form_id := updateFolderNotesForm;
                   form_method := "post";
                   form_replace := true;
                   form_preventScrollReset := true;
                   form_onChange := submit |}
       | _ => None
       end
  else None.

(** One request made by submitting a form: when, which form, and with
    which options. *)
Record Submit := {
  submit_at : nat;
  submit_form : string;
  submit_options : SubmitOptions
}.

(** The debouncing hook between two events: the clock, the ticks left on
    the armed timer if one is armed, and the submissions made so far. *)
Record Hook := {
  clock : nat;
  timer : option nat;
  submitted : list Submit
}.

(** What happens to a form: one of its inputs changes, which calls the
    form's [onChange], or the clock advances by one tick. *)
Inductive Input :=
| Change
| Tick.

Definition mounted : Hook := {| clock := 0; timer := None; submitted := [] |}.

Section Debounce.

(** The quiescence period, in ticks. *)
Variable delay : nat.

(** Modelled from the spec: [useDebouncedSubmit] lives in [~/utils/hooks],
    outside this slice.  The spec says of it: submit the enclosing form after
    a quiescence period following the last input change.  Every call of the
    callback re-arms the timer with the whole period; when the timer runs
    out, the form the callback belongs to is submitted with the callback's
    options. *)
Definition useDebouncedSubmit (callback : DebouncedSubmit) (i : Input) (h : Hook) : Hook :=
  match i with
  | Change =>
      {| clock := clock h; timer := Some delay; submitted := submitted h |}
  | Tick =>
      let now := S (clock h) in
      match timer h with
      | None => {| clock := now; timer := None; submitted := submitted h |}
      | Some remaining =>
          if (remaining <=? 1)%nat
          then {| clock := now;
                  timer := None;
                  submitted := submitted h ++
                    [{| submit_at := now;
                        submit_form := submit_target callback;
                        submit_options := submit_with callback |}] |}
          else {| clock := now; timer := Some (remaining - 1)%nat; submitted := submitted h |}
      end
  end.

(** What a rendered form does with an event: a change goes to its
    [onChange]. *)
Definition dispatch (form : NotesForm) (i : Input) (h : Hook) : Hook :=
  useDebouncedSubmit (form_onChange form) i h.

Definition run (form : NotesForm) (inputs : list Input) (h : Hook) : Hook :=
  fold_left (fun h i => dispatch form i h) inputs h.

End Debounce.



End TrainIndex.

(** ** The exercise fieldset of the mesocycle designer *)
Module Designer.

(** The fields of one set. *)
Record SetValue := {
  rir : string;
  repRange : string;
  weight : string
}.

(** [defaultValue] of the appended set. *)
Definition defaultValue : SetValue :=
  {| rir := "0"; repRange := "5-8"; weight := EmptyString |}.

(** [list.append(name, { defaultValue })] *)
Record ListAppend := {
  append_name : string;
  append_defaultValue : SetValue
}.

(** What the details panel shows, in order. *)
Inductive Control :=
| SetFieldset (setNumber : nat) (set : SetValue)
| SetsError (message : string)
| AddSet (command : ListAppend)
| Notes.

Definition ExerciseFieldset (sets_name : string) (sets_error : option string)
    (setsList : list SetValue) : list Control :=
  imap (fun index set => SetFieldset (index + 1) set) setsList
  ++ match sets_error with
     | Some e => [SetsError e]
     | None => []
     end
  ++ (if (length setsList <? 10)%nat
      then [AddSet {| append_name := sets_name; append_defaultValue := defaultValue |}]
      else [])
  ++ [Notes].

Definition is_add_set (c : Control) : bool :=
  match c with
  | AddSet _ => true
  | _ => false
  end.

(** Whether the panel shows an "Add set" control. *)
Definition shows_add_set (controls : list Control) : bool :=
  existsb is_add_set controls.

(** Pressing a control.  Only "Add set" changes the list from this
    fieldset: it appends its default value. *)
Definition press (c : Control) (setsList : list SetValue) : list SetValue :=
  match c with
  | AddSet command => setsList ++ [append_defaultValue command]
  | _ => setsList
  end.

(** One interaction with the panel: pressing a control it shows, or an
    edit inside the set fieldsets, which changes or removes entries but adds
    none. *)
Inductive step (sets_name : string) (sets_error : option string) :
    list SetValue -> list SetValue -> Prop :=
| step_press setsList c :
    c ∈ ExerciseFieldset sets_name sets_error setsList ->
    step sets_name sets_error setsList (press c setsList)
| step_edit setsList setsList' :
    (length setsList' <= length setsList)%nat ->
    step sets_name sets_error setsList setsList'.

(** Any number of interactions. *)
Inductive steps (sets_name : string) (sets_error : option string) :
    list SetValue -> list SetValue -> Prop :=
| steps_refl setsList : steps sets_name sets_error setsList setsList
| steps_step a b c :
    steps sets_name sets_error a b ->
    step sets_name sets_error b c ->
    steps sets_name sets_error a c.

(** Pressing "Add set" [n] times, as far as the control is there. *)
Fixpoint add_sets (sets_name : string) (n : nat) (setsList : list SetValue) : list SetValue :=
  match n with
  | O => setsList
  | S n' =>
      let l := add_sets sets_name n' setsList in
      match List.find is_add_set (ExerciseFieldset sets_name None l) with
      | Some c => press c l
      | None => l
      end
  end.

End Designer.

(** ** A small concrete deployment

    Three users, a counter as the world (the number of records created so
    far), and collaborators that compute.  The examples below run the route
    on it. *)
Module Demo.
Import Http SignIn.

Definition has_at_sign (s : string) : bool :=
  existsb (Ascii.eqb "@"%char) (String.list_ascii_of_string s).

Definition ada : User unit :=
  {| user_id := "u1"; user_email := "ada@example.com";
     user_subscription := Some tt; user_stripeCustomerId := Some "cus_1" |}.

Definition bob : User unit :=
  {| user_id := "u2"; user_email := "bob@example.com";
     user_subscription := None; user_stripeCustomerId := None |}.

(** An account whose password is older than the eight-character rule. *)
Definition eve : User unit :=
  {| user_id := "u3"; user_email := "eve@example.com";
     user_subscription := None; user_stripeCustomerId := None |}.

Definition users : list (string * string * User unit) :=
  [ ("ada@example.com", "correct horse", ada);
    ("bob@example.com", "battery staple", bob);
    ("eve@example.com", "short", eve) ].

Definition lookup_user (e p : string) : option (User unit) :=
  snd <$> List.find (fun row => String.eqb row.1.1 e && String.eqb row.1.2 p) users.

Definition env : Env nat string unit :=
  {| is_email := has_at_sign;
     appRoot := "/app";
     signIn := "/sign-in";
     verifyLogin := fun e p w => (lookup_user e p, w);
     generateId := fun w => ("c" +:+ pretty w, w);
     createStripeCheckoutSession :=
       fun userId _ _ _ w => ("https://checkout.example/" +:+ userId, S w);
     createUserSession := fun _ userId w => (userId, S w);
     commitSession := fun session w => ("__session=" +:+ session, w) |}.

Definition form (i : option string) (e p : string) : Request :=
  {| req_formData := {| fd_intent := i; fd_email := Text e; fd_password := Text p |};
     req_cookie := None |}.

(** The text before the first [/] of a string, and the text after it when
    there is one. *)
Fixpoint cut_slash (s : string) : string * option string :=
  match s with
  | EmptyString => (EmptyString, None)
  | String c s' =>
      if Ascii.eqb c "/"%char then (EmptyString, Some s')
      else (String c (cut_slash s').1, (cut_slash s').2)
  end.

(** The name a list intent [list/<type>/<name>/<payload>] carries.  Of the
    payloads the forms library accepts the examples use [{}] only, and no
    other is recognised here. *)
Definition list_scope (intent : string) : option string :=
  let group := cut_slash intent in
  type ← cut_slash <$> group.2;
  scope ← cut_slash <$> type.2;
  payload ← cut_slash <$> scope.2;
  if String.eqb group.1 "list"
     && existsb (String.eqb type.1) ["prepend"; "append"; "replace"; "remove"; "reorder"]
     && negb (String.eqb scope.1 EmptyString)
     && String.eqb payload.1 "{}"
  then Some scope.1
  else None.

(** What is under the name after a list command: a text there is no list,
    and the command throws; nothing there, or several entries, makes a
    list. *)
Definition to_list (v : FieldValue) : option FieldValue :=
  match v with
  | Text _ => None
  | Absent | NotText => Some NotText
  end.

(** The list intents of the forms library, for the examples: the command
    on the two fields of the form. *)
Definition listCommand (intent : string) (formData : FormData) : option FormData :=
  match list_scope intent with
  | Some scope =>
      if String.eqb scope "email"
      then (fun v => {| fd_intent := fd_intent formData;
                        fd_email := v;
                        fd_password := fd_password formData |})
             <$> to_list (fd_email formData)
      else if String.eqb scope "password"
      then (fun v => {| fd_intent := fd_intent formData;
                        fd_email := fd_email formData;
                        fd_password := v |})
             <$> to_list (fd_password formData)
      else Some formData
  | None => Some formData
  end.

End Demo.

(** ** The sign-in route on every request

    [parse] with what it does before the schema runs, and [action] with the
    failure of [parse]. *)
Module SignInRoute.
Import Http SignIn.

(** What a call comes to: it returns, or it throws. *)
Inductive Outcome (A : Type) :=
| Returns (a : A)
| Throws.
Arguments Returns {A} _.
Arguments Throws {A}.

(** The intents [parse] takes for list commands all begin with [list/]:
    the text before the first [/] has to be [list], and a type and a name
    have to follow. *)
Definition is_list_intent (intent : string) : bool := String.prefix "list/" intent.

(** An action that may throw, over the same state. *)
Definition M (World A : Type) : Type := State World -> Outcome A * State World.

Definition ret {World A : Type} (a : A) : M World A := fun st => (Returns a, st).

Definition bind {World A B : Type} (m : M World A) (k : A -> M World B) : M World B :=
  fun st =>
    match (m st).1 with
    | Returns a => k a (m st).2
    | Throws => (Throws, (m st).2)
    end.

(** A computation without effect on the state: it returns or throws. *)
Definition lift {World A : Type} (o : Outcome A) : M World A := fun st => (o, st).

Definition call {World A : Type} (ev : Event) (f : World -> A * World) : M World A :=
  fun st =>
    let r := f (world st) in
    (Returns r.1, {| world := r.2; trace := trace st ++ [ev] |}).

Notation "'let!' x ':=' c 'in' k" := (bind c (fun x => k))
  (at level 10, x name, c at level 100, k at level 200).

Section Route.

Context {World Session Subscription : Type}.

(** What the forms library does with a list intent before the schema
    runs: it rewrites what the payload holds under the name the intent
    carries, or throws ([None]) when that is not a list.  It belongs to the
    library; nothing is assumed of it here. *)
Variable listCommand : string -> FormData -> option FormData.

Variable env : Env World Session Subscription.

(** The payload [parse] hands to the schema: the entries of the form,
    rewritten by the list command when the intent is one.  The intent
    itself is never rewritten. *)
Definition collect (formData : FormData) : Outcome FormData :=
  let intent := default "submit" (fd_intent formData) in
  if is_list_intent intent
  then match listCommand intent formData with
       | Some payload =>
           Returns {| fd_intent := fd_intent formData;
                      fd_email := fd_email payload;
                      fd_password := fd_password payload |}
       | None => Throws
       end
  else Returns formData.

(** [parse(formData, { schema })] *)
Definition parse (formData : FormData) : Outcome Submission :=
  match collect formData with
  | Returns payload => Returns (SignIn.parse (is_email env) payload)
  | Throws => Throws
  end.

(** [action], line by line. *)
Definition action (request : Request) : M World (Response Submission) :=
  let formData := req_formData request in
  let! submission := lift (parse formData) in
  match value submission with
  | None => ret (json submission (with_status 400))
  | Some credentials =>
      if negb (String.eqb (intent submission) "submit")
      then ret (json submission (with_status 400))
      else
        let! user :=
          call (EvVerifyLogin (email credentials) (password credentials))
               (verifyLogin env (email credentials) (password credentials)) in
        match user with
        | None =>
            ret (json (set_error "form" invalid_credentials_message submission)
                      (with_status 400))
        | Some user =>
            match user_subscription user with
            | None =>
                let! canceled_id := call EvGenerateId (generateId env) in
                let cancelUrl := signIn env +:+ "?canceled_id=" +:+ canceled_id in
                let! sessionUrl :=
                  call (EvCreateStripeCheckoutSession (user_id user) (user_email user)
                          cancelUrl (user_stripeCustomerId user))
                       (createStripeCheckoutSession env (user_id user) (user_email user)
                          cancelUrl (user_stripeCustomerId user)) in
                ret (redirect sessionUrl (with_status 303))
            | Some _ =>
                let! userSession :=
                  call (EvCreateUserSession (user_id user))
                       (createUserSession env request (user_id user)) in
                let! cookie := call EvCommitSession (commitSession env userSession) in
                ret (redirect (appRoot env) (with_headers {[ "Set-Cookie" := cookie ]}))
            end
        end
  end.

(** The answer of a run that returned a response with this status. *)
Definition answers (status_code : Z) (o : Outcome (Response Submission)) : Prop :=
  exists response, o = Returns response /\ status response = status_code.

End Route.


End SignInRoute.


(** * Properties of the sign-in route *)
Module SignInProofs.
Import Http SignIn.

Section Schema.

Variable is_email : string -> bool.




(** The value is present exactly when both fields are text within the
    schema's bounds, and then it is the two texts. *)
Lemma parse_value_Some formData c :
  value (parse is_email formData) = Some c <->
  fd_email formData = Text (email c) /\
  fd_password formData = Text (password c) /\
  issues is_email schema_email (fd_email formData) = [] /\
  issues is_email schema_password (fd_password formData) = [].
Proof.
  unfold parse; cbn [value].
  destruct (fd_email formData) as [|e|], (fd_password formData) as [|p|];
    try (split; [discriminate | intros (H & _); discriminate H]);
    try (split; [discriminate | intros (_ & H & _); discriminate H]).
  destruct (issues is_email schema_email (Text e)) eqn:He;
    [destruct (issues is_email schema_password (Text p)) eqn:Hp|].
  - split.
    + intros [= <-]. auto.
    + intros ([= ->] & [= ->] & _). destruct c; reflexivity.
  - split; [discriminate | intros (_ & _ & _ & H); discriminate H].
  - split; [discriminate | intros (_ & _ & H & _); discriminate H].
Qed.

Lemma parse_error_email formData :
  error (parse is_email formData) !! "email" =
  head (issues is_email schema_email (fd_email formData)).
Proof.
  unfold parse, keep_first; cbn [error].
  destruct (head (issues is_email schema_password (fd_password formData)));
    destruct (head (issues is_email schema_email (fd_email formData)));
    rewrite ?lookup_insert_ne by discriminate;
    rewrite ?lookup_insert_eq, ?lookup_empty; reflexivity.
Qed.

Lemma parse_error_password formData :
  error (parse is_email formData) !! "password" =
  head (issues is_email schema_password (fd_password formData)).
Proof.
  unfold parse, keep_first; cbn [error].
  destruct (head (issues is_email schema_password (fd_password formData)));
    destruct (head (issues is_email schema_email (fd_email formData)));
    rewrite ?lookup_insert_eq; rewrite ?lookup_insert_ne by discriminate;
    rewrite ?lookup_empty; reflexivity.
Qed.

(** The schema reports under the two field names only. *)
Lemma parse_error_other formData key :
  key <> "email" -> key <> "password" ->
  error (parse is_email formData) !! key = None.
Proof.
  intros He Hp. unfold parse, keep_first; cbn [error].
  destruct (head (issues is_email schema_password (fd_password formData)));
    destruct (head (issues is_email schema_email (fd_email formData)));
    rewrite ?lookup_insert_ne by congruence; apply lookup_empty.
Qed.

(** A submission without a value has a message under a field. *)
Lemma parse_value_None formData :
  value (parse is_email formData) = None ->
  is_Some (error (parse is_email formData) !! "email") \/
  is_Some (error (parse is_email formData) !! "password").
Proof.
  rewrite parse_error_email, parse_error_password.
  unfold parse; cbn [value].
  destruct (fd_email formData) as [|e|]; try (intros _; left; eexists; reflexivity).
  destruct (fd_password formData) as [|p|]; try (intros _; right; eexists; reflexivity).
  destruct (issues is_email schema_email (Text e)) as [|m ms];
    [|intros _; left; eexists; reflexivity].
  destruct (issues is_email schema_password (Text p)) as [|m ms];
    [discriminate|intros _; right; eexists; reflexivity].
Qed.


End Schema.

Section Paths.

Context {World Session Subscription : Type}.
Variable env : Env World Session Subscription.

(** Every run of the action is one of the four paths. *)
Lemma action_cases request st : ActionCase env request st (action env request st).
Proof.
  unfold action.
  destruct (value (parse (is_email env) (req_formData request))) as [c|] eqn:Hv.
  2:{ apply case_rejected. left. exact Hv. }
  destruct (String.eqb (intent (parse (is_email env) (req_formData request))) "submit") eqn:Hi;
    cbn [negb].
  2:{ apply case_rejected. right. apply String.eqb_neq. exact Hi. }
  apply String.eqb_eq in Hi.
  unfold bind, call, ret; cbn [fst snd world trace].
  destruct ((verifyLogin env (email c) (password c) (world st)).1) as [user|] eqn:Hu.
  2:{ apply (case_unverified env request st c Hv Hi). exact Hu. }
  destruct (user_subscription user) as [subscription|] eqn:Hs.
  - cbn [world trace fst snd]. rewrite <- !app_assoc. cbn [app].
    exact (case_session env request st c user subscription Hv Hi Hu Hs).
  - cbn [world trace fst snd]. rewrite <- !app_assoc. cbn [app].
    exact (case_checkout env request st c user Hv Hi Hu Hs).
Qed.

Lemma action_rejected_path request st :
  value (parse (is_email env) (req_formData request)) = None \/
  intent (parse (is_email env) (req_formData request)) <> "submit" ->
  action env request st =
    (json (parse (is_email env) (req_formData request)) (with_status 400), st).
Proof.
  intros H. destruct (action_cases request st); [reflexivity| | |];
    destruct H; congruence.
Qed.

Lemma action_unverified_path request st c :
  value (parse (is_email env) (req_formData request)) = Some c ->
  intent (parse (is_email env) (req_formData request)) = "submit" ->
  (verified env c st).1 = None ->
  action env request st =
    (json (set_error "form" invalid_credentials_message
             (parse (is_email env) (req_formData request)))
          (with_status 400),
     {| world := (verified env c st).2;
        trace := trace st ++ [EvVerifyLogin (email c) (password c)] |}).
Proof.
  intros Hv Hi Hu.
  destruct (action_cases request st) as [[H|H]|c' Hv' _ _|c' u Hv' _ Hu' _|c' u sub Hv' _ Hu' _];
    try congruence;
    rewrite Hv in Hv'; injection Hv' as <-; congruence.
Qed.

Lemma action_checkout_path request st c user :
  value (parse (is_email env) (req_formData request)) = Some c ->
  intent (parse (is_email env) (req_formData request)) = "submit" ->
  (verified env c st).1 = Some user ->
  user_subscription user = None ->
  action env request st =
    (redirect (checkout env user (verified env c st).2).1 (with_status 303),
     {| world := (checkout env user (verified env c st).2).2;
        trace := trace st ++
          [EvVerifyLogin (email c) (password c);
           EvGenerateId;
           EvCreateStripeCheckoutSession (user_id user) (user_email user)
             (checkout_cancelUrl env (verified env c st).2)
             (user_stripeCustomerId user)] |}).
Proof.
  intros Hv Hi Hu Hs.
  destruct (action_cases request st) as [[H|H]|c' Hv' _ Hu'|c' u Hv' _ Hu' Hs'|c' u sub Hv' _ Hu' Hs'];
    try congruence;
    rewrite Hv in Hv'; injection Hv' as <-; congruence.
Qed.

Lemma action_session_path request st c user subscription :
  value (parse (is_email env) (req_formData request)) = Some c ->
  intent (parse (is_email env) (req_formData request)) = "submit" ->
  (verified env c st).1 = Some user ->
  user_subscription user = Some subscription ->
  action env request st =
    (redirect (appRoot env)
       (with_headers {[ "Set-Cookie" := (cookie env request user (verified env c st).2).1 ]}),
     {| world := (cookie env request user (verified env c st).2).2;
        trace := trace st ++
          [EvVerifyLogin (email c) (password c);
           EvCreateUserSession (user_id user);
           EvCommitSession] |}).
Proof.
  intros Hv Hi Hu Hs.
  destruct (action_cases request st) as [[H|H]|c' Hv' _ Hu'|c' u Hv' _ Hu' Hs'|c' u sub Hv' _ Hu' Hs'];
    try congruence;
    rewrite Hv in Hv'; injection Hv' as <-; congruence.
Qed.

Lemma redirect_is_redirect (url : string) (h : gmap string string) :
  is_redirect (redirect (Data := Submission) url (with_headers h)) = true.
Proof. reflexivity. Qed.

Lemma no_user_session_in (tr : list Event) :
  forallb (fun ev => match ev with EvCreateUserSession _ => false | _ => true end) tr = true ->
  ~ creates_user_session tr.
Proof.
  intros Hall [userId Hin].
  rewrite forallb_forall in Hall. specialize (Hall _ Hin). discriminate Hall.
Qed.

Lemma signed_in_intro request w c user :
  action env request (initial w) =
    (redirect (appRoot env)
       (with_headers
          {[ "Set-Cookie" := (cookie env request user (verified env c (initial w)).2).1 ]}),
     {| world := (cookie env request user (verified env c (initial w)).2).2;
        trace := trace (initial w) ++
          [EvVerifyLogin (email c) (password c);
           EvCreateUserSession (user_id user);
           EvCommitSession] |}) ->
  signed_in env request w c user.
Proof.
  intros Heq. unfold signed_in. rewrite Heq.
  cbn [fst snd trace world initial app].
  split; [reflexivity|]. split; [split|split].
  - apply redirect_is_redirect.
  - unfold redirect, with_headers; cbn [headers init_headers].
    apply lookup_insert_eq.
  - unfold redirect, with_headers; cbn [headers init_headers].
    rewrite lookup_insert_ne by discriminate.
    apply lookup_singleton_eq.
  - reflexivity.
Qed.

Lemma sent_to_checkout_intro request w c user :
  action env request (initial w) =
    (redirect (checkout env user (verified env c (initial w)).2).1 (with_status 303),
     {| world := (checkout env user (verified env c (initial w)).2).2;
        trace := trace (initial w) ++
          [EvVerifyLogin (email c) (password c);
           EvGenerateId;
           EvCreateStripeCheckoutSession (user_id user) (user_email user)
             (checkout_cancelUrl env (verified env c (initial w)).2)
             (user_stripeCustomerId user)] |}) ->
  sent_to_checkout env request w c user.
Proof.
  intros Heq. unfold sent_to_checkout. rewrite Heq.
  cbn [fst snd trace world initial app].
  split; [reflexivity|]. split; [reflexivity|]. split; [|split; [|split]].
  - unfold redirect, with_status; cbn [headers init_headers].
    apply lookup_insert_eq.
  - unfold redirect, with_status; cbn [headers init_headers].
    rewrite lookup_insert_ne by discriminate.
    apply lookup_empty.
  - apply no_user_session_in. reflexivity.
  - reflexivity.
Qed.

(** C1 (amended).  For every sign-in submission that passes schema
    validation with intent [submit] and whose credentials verify to a user
    that has a subscription, the action creates a user session for that user,
    commits it, and returns a redirect to the app root whose [Set-Cookie]
    header carries the committed session. *)
Theorem action_signs_in_subscribed_user request w c user subscription :
  value (parse (is_email env) (req_formData request)) = Some c ->
  intent (parse (is_email env) (req_formData request)) = "submit" ->
  (verified env c (initial w)).1 = Some user ->
  user_subscription user = Some subscription ->
  signed_in env request w c user.
Proof.
  intros Hv Hi Hu Hs. apply signed_in_intro.
  exact (action_session_path request (initial w) c user subscription Hv Hi Hu Hs).
Qed.

(** C2 (amended).  For every sign-in submission that passes schema
    validation with intent [submit] and whose credentials verify to a user
    that has no subscription, the action creates a checkout session through
    [createStripeCheckoutSession] and returns a redirect with status 303 to
    the URL it got back, without creating a user session. *)
Theorem action_sends_unsubscribed_user_to_checkout request w c user :
  value (parse (is_email env) (req_formData request)) = Some c ->
  intent (parse (is_email env) (req_formData request)) = "submit" ->
  (verified env c (initial w)).1 = Some user ->
  user_subscription user = None ->
  sent_to_checkout env request w c user.
Proof.
  intros Hv Hi Hu Hs. apply sent_to_checkout_intro.
  exact (action_checkout_path request (initial w) c user Hv Hi Hu Hs).
Qed.

(** C3 (amended).  Every redirect the sign-in action produces is either the
    redirect to the external checkout URL, which has status 303, or the
    redirect to the app root, which is given no status of its own and so
    has the framework's default redirect status, 302. *)
Theorem action_redirect_status request w :
  is_redirect (action env request (initial w)).1 = true ->
  (status (action env request (initial w)).1 = 303%Z /\
   exists c user, sent_to_checkout env request w c user) \/
  (status (action env request (initial w)).1 = 302%Z /\
   exists c user, signed_in env request w c user).
Proof.
  destruct (action_cases request (initial w)) as [H|c Hv Hi Hu|c u Hv Hi Hu Hs|c u sub Hv Hi Hu Hs];
    intros Hr.
  - discriminate Hr.
  - discriminate Hr.
  - left. split; [reflexivity|]. exists c, u.
    apply sent_to_checkout_intro.
    exact (action_checkout_path request (initial w) c u Hv Hi Hu Hs).
  - right. split; [reflexivity|]. exists c, u.
    apply signed_in_intro.
    exact (action_session_path request (initial w) c u sub Hv Hi Hu Hs).
Qed.

(** C4 (amended).  For every sign-in submission that passes schema
    validation with intent [submit] but whose credentials do not verify to a
    user, the action returns status 400 and the submission with the single
    form-level message "You have entered an invalid email or password." *)
Theorem action_rejects_unverified_credentials request w c :
  value (parse (is_email env) (req_formData request)) = Some c ->
  intent (parse (is_email env) (req_formData request)) = "submit" ->
  (verified env c (initial w)).1 = None ->
  credentials_rejected env request w.
Proof.
  intros Hv Hi Hu. unfold credentials_rejected.
  rewrite (action_unverified_path request (initial w) c Hv Hi Hu).
  cbn [fst snd]. split; [reflexivity|]. split; [reflexivity|].
  unfold json; cbn [body fmap option_fmap option_map set_error error].
  f_equal.
  apply parse_value_Some in Hv. destruct Hv as (_ & _ & He & Hp).
  unfold parse; cbn [error]. rewrite He, Hp. reflexivity.
Qed.

End Paths.

(** *** The schema at work *)

Example empty_email_short_password :
  let submission :=
    parse Demo.has_at_sign
      {| fd_intent := None; fd_email := Text EmptyString; fd_password := Text "short" |} in
  value submission = None /\
  error submission !! "email" = Some "Email is required." /\
  error submission !! "password" = Some "Password must be at least 8 characters long." /\
  error submission !! "form" = None.
Proof. cbv zeta. repeat split; reflexivity. Qed.

Example missing_email_uploaded_password :
  let submission :=
    parse Demo.has_at_sign
      {| fd_intent := Some "submit"; fd_email := Absent; fd_password := NotText |} in
  value submission = None /\
  error submission !! "email" = Some "Email is required." /\
  error submission !! "password" = Some "Password is not valid.".
Proof. cbv zeta. repeat split; reflexivity. Qed.

Example valid_submission :
  let submission :=
    parse Demo.has_at_sign
      {| fd_intent := None; fd_email := Text "ada@example.com";
         fd_password := Text "correct horse" |} in
  intent submission = "submit" /\
  value submission = Some {| email := "ada@example.com"; password := "correct horse" |} /\
  error submission = ∅.
Proof. cbv zeta. repeat split; reflexivity. Qed.

(** *** The route on the concrete deployment *)

(** C1, as stated, fails.  Ada has a subscription, her email and password
    pass the schema and verify, but the form is posted with the intent
    [validate/email]: the action answers 400 and creates no session. *)
Lemma validate_intent_is_not_signed_in :
  let request := Demo.form (Some "validate/email") "ada@example.com" "correct horse" in
  let c := {| email := "ada@example.com"; password := "correct horse" |} in
  value (parse (is_email Demo.env) (req_formData request)) = Some c /\
  (verified Demo.env c (initial 0%nat)).1 = Some Demo.ada /\
  user_subscription Demo.ada = Some tt /\
  status (action Demo.env request (initial 0%nat)).1 = 400%Z /\
  trace (action Demo.env request (initial 0%nat)).2 = [] /\
  ~ signed_in Demo.env request 0%nat c Demo.ada.
Proof.
  cbv zeta. repeat (split; [reflexivity|]).
  intros (Htrace & _). vm_compute in Htrace. discriminate Htrace.
Qed.

Lemma action_signs_in_subscribed_user_witness :
  let request := Demo.form None "ada@example.com" "correct horse" in
  let c := {| email := "ada@example.com"; password := "correct horse" |} in
  intent (parse (is_email Demo.env) (req_formData request)) = "submit" /\
  signed_in Demo.env request 0%nat c Demo.ada.
Proof.
  cbv zeta. split; [reflexivity|].
  apply (action_signs_in_subscribed_user Demo.env _ 0%nat _ Demo.ada tt); reflexivity.
Defined.

(** C2, as stated, fails, in two ways.  Eve has no subscription and her
    credentials verify, but her password is shorter than the schema allows;
    Bob has no subscription and his credentials verify, but the form is
    posted with the intent [validate/password].  Either way the action
    answers 400 and creates no checkout session. *)
Lemma unvalidated_submission_is_not_sent_to_checkout :
  let short := Demo.form None "eve@example.com" "short" in
  let eve_c := {| email := "eve@example.com"; password := "short" |} in
  let validate := Demo.form (Some "validate/password") "bob@example.com" "battery staple" in
  let bob_c := {| email := "bob@example.com"; password := "battery staple" |} in
  ((verified Demo.env eve_c (initial 0%nat)).1 = Some Demo.eve /\
   user_subscription Demo.eve = None /\
   status (action Demo.env short (initial 0%nat)).1 = 400%Z /\
   trace (action Demo.env short (initial 0%nat)).2 = [] /\
   ~ sent_to_checkout Demo.env short 0%nat eve_c Demo.eve) /\
  ((verified Demo.env bob_c (initial 0%nat)).1 = Some Demo.bob /\
   user_subscription Demo.bob = None /\
   status (action Demo.env validate (initial 0%nat)).1 = 400%Z /\
   trace (action Demo.env validate (initial 0%nat)).2 = [] /\
   ~ sent_to_checkout Demo.env validate 0%nat bob_c Demo.bob).
Proof.
  cbv zeta. split; repeat (split; [reflexivity|]);
    intros (Htrace & _); vm_compute in Htrace; discriminate Htrace.
Qed.

Lemma action_sends_unsubscribed_user_to_checkout_witness :
  let request := Demo.form None "bob@example.com" "battery staple" in
  let c := {| email := "bob@example.com"; password := "battery staple" |} in
  intent (parse (is_email Demo.env) (req_formData request)) = "submit" /\
  sent_to_checkout Demo.env request 0%nat c Demo.bob.
Proof.
  cbv zeta. split; [reflexivity|].
  apply (action_sends_unsubscribed_user_to_checkout Demo.env _ 0%nat _ Demo.bob); reflexivity.
Defined.

(** C3, as stated, fails.  Ada's sign-in is answered with a redirect to the
    app root, and its status is 302, not 303. *)
Lemma app_root_redirect_is_not_303 :
  let request := Demo.form None "ada@example.com" "correct horse" in
  let r := action Demo.env request (initial 0%nat) in
  redirects_to (appRoot Demo.env) r.1 /\
  status r.1 = 302%Z /\
  status r.1 <> 303%Z.
Proof.
  cbv zeta. split; [split; reflexivity|]. split; [reflexivity|].
  intros H. vm_compute in H. discriminate H.
Qed.

Lemma action_redirect_status_witness :
  let request := Demo.form None "bob@example.com" "battery staple" in
  let r := action Demo.env request (initial 0%nat) in
  is_redirect r.1 = true /\
  ((status r.1 = 303%Z /\ exists c user, sent_to_checkout Demo.env request 0%nat c user) \/
   (status r.1 = 302%Z /\ exists c user, signed_in Demo.env request 0%nat c user)).
Proof.
  cbv zeta. split; [reflexivity|].
  apply (action_redirect_status Demo.env _ 0%nat). reflexivity.
Defined.

(** C4, as stated, fails.  The email and password pass the schema and do
    not verify, but the form is posted with the intent [validate/password]:
    the action answers 400 with the submission as parsed, which has no
    form-level message. *)
Lemma validate_intent_has_no_form_error :
  let request := Demo.form (Some "validate/password") "ada@example.com" "incorrect horse" in
  let c := {| email := "ada@example.com"; password := "incorrect horse" |} in
  let r := action Demo.env request (initial 0%nat) in
  value (parse (is_email Demo.env) (req_formData request)) = Some c /\
  (verified Demo.env c (initial 0%nat)).1 = None /\
  status r.1 = 400%Z /\
  error <$> body r.1 = Some ∅ /\
  ~ credentials_rejected Demo.env request 0%nat.
Proof.
  cbv zeta. repeat (split; [reflexivity|]).
  intros (_ & _ & He).
  apply (f_equal (fun o : option (gmap string string) => o ≫= (.!! "form"))) in He.
  vm_compute in He. discriminate He.
Qed.

Lemma action_rejects_unverified_credentials_witness :
  let request := Demo.form None "ada@example.com" "incorrect horse" in
  let c := {| email := "ada@example.com"; password := "incorrect horse" |} in
  value (parse (is_email Demo.env) (req_formData request)) = Some c /\
  intent (parse (is_email Demo.env) (req_formData request)) = "submit" /\
  (verified Demo.env c (initial 0%nat)).1 = None /\
  credentials_rejected Demo.env request 0%nat.
Proof.
  cbv zeta. repeat (split; [reflexivity|]).
  apply (action_rejects_unverified_credentials Demo.env _ 0%nat
           {| email := "ada@example.com"; password := "incorrect horse" |}); reflexivity.
Defined.

End SignInProofs.

(** * Properties of the root error boundary *)
Module RootProofs.
Import Root.

Lemma renders_intro (page : ErrorPage) :
  action page = back_to_home ->
  renders (Rendered (ErrorDoc page)) (statusCode page) (title page) (subtitle page).
Proof. intros H. exists (ErrorDoc page). repeat split; assumption || reflexivity. Qed.

Lemma ErrorBoundary_response status statusText data pathname :
  (ErrorBoundary (ErrorResponse status statusText data) pathname).2 =
    if (status =? 404)%Z then Rendered (ErrorDoc (not_found_page status pathname))
    else if (status =? 500)%Z then Throws ("Unhandled error: " +:+ pretty status)
    else Rendered (ErrorDoc (failure_page status pathname)).
Proof.
  cbn [ErrorBoundary snd].
  destruct (status =? 404)%Z; [reflexivity|].
  destruct (status =? 500)%Z; reflexivity.
Qed.

(** C7, as stated, fails.  A route error response with status 500 is not
    shown on any page: the boundary throws. *)
Lemma error_response_500_is_not_rendered :
  (ErrorBoundary (ErrorResponse 500 "Internal Server Error" "boom") "/app").2 =
    Throws "Unhandled error: 500" /\
  ~ renders_generic_page (ErrorResponse 500 "Internal Server Error" "boom") "/app".
Proof.
  split; [reflexivity|].
  intros (doc & H & _). vm_compute in H. discriminate H.
Qed.

(** C7 (amended).  What the root boundary does with a route error depends
    only on whether it is a route error response and on its status code.  A
    response with status 404 is shown as "Page not found" for the current
    pathname; a response with any status but 404 and 500 is shown on the
    failure page for the current pathname, with its status code; an error
    that is not a route error response is shown on the same failure page
    with status code 500; for a response with status 500 nothing is shown:
    the boundary throws "Unhandled error: 500". *)
Theorem ErrorBoundary_by_status (pathname : string) :
  (forall statusText data,
     renders (ErrorBoundary (ErrorResponse 404 statusText data) pathname).2
       404 "Page not found"
       (dquote +:+ pathname +:+ dquote +:+ " is not a page. So sorry.")) /\
  (forall status statusText data,
     status <> 404%Z -> status <> 500%Z ->
     renders (ErrorBoundary (ErrorResponse status statusText data) pathname).2
       status "Oh no, something did not go well."
       (dquote +:+ pathname +:+ dquote +:+ " is currently not working. So sorry.")) /\
  (forall message,
     renders (ErrorBoundary (Thrown message) pathname).2
       500 "Oh no, something did not go well."
       (dquote +:+ pathname +:+ dquote +:+ " is currently not working. So sorry.")) /\
  (forall statusText data,
     (ErrorBoundary (ErrorResponse 500 statusText data) pathname).2 =
       Throws "Unhandled error: 500") /\
  (forall status statusText data statusText' data',
     (ErrorBoundary (ErrorResponse status statusText data) pathname).2 =
     (ErrorBoundary (ErrorResponse status statusText' data') pathname).2) /\
  (forall error,
     (forall statusText data, error <> ErrorResponse 500 statusText data) ->
     renders_generic_page error pathname).
Proof.
  split; [|split; [|split; [|split; [|split]]]].
  - intros statusText data. rewrite ErrorBoundary_response.
    exact (renders_intro (not_found_page 404 pathname) eq_refl).
  - intros status statusText data H404 H500. rewrite ErrorBoundary_response.
    apply Z.eqb_neq in H404. apply Z.eqb_neq in H500. rewrite H404, H500.
    exact (renders_intro (failure_page status pathname) eq_refl).
  - intros message. exact (renders_intro (failure_page 500 pathname) eq_refl).
  - intros statusText data. reflexivity.
  - intros status statusText data statusText' data'.
    rewrite !ErrorBoundary_response. reflexivity.
  - intros [status statusText data|message] Hnot; unfold renders_generic_page.
    + rewrite ErrorBoundary_response.
      destruct (status =? 404)%Z eqn:H404.
      * exact (renders_intro (not_found_page status pathname) eq_refl).
      * destruct (status =? 500)%Z eqn:H500.
        -- apply Z.eqb_eq in H500. subst status. destruct (Hnot statusText data eq_refl).
        -- exact (renders_intro (failure_page status pathname) eq_refl).
    + exact (renders_intro (failure_page 500 pathname) eq_refl).
Qed.

End RootProofs.

(** * Properties of the debounced notes form *)
Module TrainIndexProofs.
Import TrainIndex.

Section Debounce.

Variable delay : nat.
Variable form : NotesForm.









End Debounce.

(** The card renders the notes form exactly when it is open and the
    folder's notes are a non-empty string; the form's change handler is the
    debounced submit of that very form. *)
Lemma Folder_form (notes : option string) (open : bool) (form : NotesForm) :
  Folder notes open = Some form <->
  open = true /\ (exists a s, notes = Some (String a s)) /\
  form = {| form_id := "update-folder-notes";
            form_method := "post";
            form_replace := true;
            form_preventScrollReset := true;
            form_onChange :=
              {| submit_target := "update-folder-notes";
                 submit_with := {| preventScrollReset := true; replace := true |} |} |}.
Proof.
  unfold Folder. destruct open, notes as [[|a s]|]; split;
    try discriminate; try (intros (H & _); discriminate H);
    try (intros (_ & (a' & s' & H) & _); discriminate H).
  - intros [= <-]. split; [reflexivity|]. split; [eauto|reflexivity].
  - intros (_ & _ & ->). reflexivity.
Qed.

(** With a period of three ticks: a change, two ticks, another change,
    then four ticks.  The first change is never submitted; the second is,
    three ticks after it. *)
Example two_changes_one_submit :
  (fun form =>
     submitted (run 3 form [Change; Tick; Tick; Change; Tick; Tick; Tick; Tick] mounted))
    <$> Folder (Some "Deload week") true =
  Some [{| submit_at := 5;
           submit_form := "update-folder-notes";
           submit_options := {| preventScrollReset := true; replace := true |} |}].
Proof. reflexivity. Qed.


End TrainIndexProofs.

(** * Properties of the exercise fieldset *)
Module DesignerProofs.
Import Designer.

Section Panel.

Variable sets_name : string.
Variable sets_error : option string.

Lemma set_fieldsets_no_add_set (setsList : list SetValue) (c : Control) :
  c ∈ imap (fun index set => SetFieldset (index + 1) set) setsList ->
  is_add_set c = false.
Proof.
  intros Hc. apply elem_of_lookup_imap in Hc. destruct Hc as (i & x & -> & _). reflexivity.
Qed.

(** The only "Add set" control the panel ever shows appends the default
    value, and it is there only under ten sets. *)
Lemma add_set_in_panel (setsList : list SetValue) (c : Control) :
  c ∈ ExerciseFieldset sets_name sets_error setsList ->
  is_add_set c = true ->
  c = AddSet {| append_name := sets_name; append_defaultValue := defaultValue |} /\
  (length setsList < 10)%nat.
Proof.
  unfold ExerciseFieldset. rewrite !elem_of_app.
  intros [Hc|[Hc|[Hc|Hc]]] Hadd.
  - apply set_fieldsets_no_add_set in Hc. congruence.
  - destruct sets_error; [apply list_elem_of_singleton in Hc; subst c; discriminate Hadd|].
    apply elem_of_nil in Hc. destruct Hc.
  - destruct (Nat.ltb_spec (length setsList) 10) as [Hlt|Hge].
    + apply list_elem_of_singleton in Hc. split; [exact Hc | exact Hlt].
    + apply elem_of_nil in Hc. destruct Hc.
  - apply list_elem_of_singleton in Hc; subst c; discriminate Hadd.
Qed.

Lemma shows_add_set_iff (setsList : list SetValue) :
  shows_add_set (ExerciseFieldset sets_name sets_error setsList) = true <->
  (length setsList < 10)%nat.
Proof.
  unfold shows_add_set. rewrite existsb_exists. split.
  - intros (c & Hin & Hadd). apply list_elem_of_In in Hin.
    exact (proj2 (add_set_in_panel setsList c Hin Hadd)).
  - intros Hlt.
    exists (AddSet {| append_name := sets_name; append_defaultValue := defaultValue |}).
    split; [|reflexivity]. apply list_elem_of_In.
    unfold ExerciseFieldset. rewrite !elem_of_app. right. right. left.
    apply Nat.ltb_lt in Hlt. rewrite Hlt. apply list_elem_of_singleton. reflexivity.
Qed.

(** Pressing a control of the panel leaves the list alone or appends the
    default value to a list of fewer than ten sets. *)
Lemma press_in_panel (setsList : list SetValue) (c : Control) :
  c ∈ ExerciseFieldset sets_name sets_error setsList ->
  press c setsList = setsList \/
  (press c setsList = setsList ++ [defaultValue] /\ (length setsList < 10)%nat).
Proof.
  intros Hc. destruct (is_add_set c) eqn:Hadd.
  - destruct (add_set_in_panel setsList c Hc Hadd) as [-> Hlt]. right. split; [reflexivity|exact Hlt].
  - left. destruct c; try reflexivity. discriminate Hadd.
Qed.

Lemma step_at_most_ten (a b : list SetValue) :
  step sets_name sets_error a b -> (length a <= 10)%nat -> (length b <= 10)%nat.
Proof.
  intros [setsList c Hc|setsList setsList' Hle] Ha; [|lia].
  destruct (press_in_panel setsList c Hc) as [->|[-> Hlt]]; [exact Ha|].
  rewrite length_app. cbn [length]. lia.
Qed.

Lemma steps_at_most_ten (a b : list SetValue) :
  steps sets_name sets_error a b -> (length a <= 10)%nat -> (length b <= 10)%nat.
Proof.
  induction 1 as [|a b c _ IH Hstep]; intros Ha; [exact Ha|].
  apply (step_at_most_ten b c Hstep). apply IH. exact Ha.
Qed.

End Panel.

Lemma find_add_set (sets_name : string) (setsList : list SetValue) :
  List.find is_add_set (ExerciseFieldset sets_name None setsList) =
    if (length setsList <? 10)%nat
    then Some (AddSet {| append_name := sets_name; append_defaultValue := defaultValue |})
    else None.
Proof.
  destruct (List.find is_add_set (ExerciseFieldset sets_name None setsList)) as [c|] eqn:Hfind.
  - apply find_some in Hfind. destruct Hfind as [Hin Hadd]. apply list_elem_of_In in Hin.
    destruct (add_set_in_panel sets_name None setsList c Hin Hadd) as [-> Hlt].
    apply Nat.ltb_lt in Hlt. rewrite Hlt. reflexivity.
  - destruct (Nat.ltb_spec (length setsList) 10) as [Hlt|Hge]; [|reflexivity].
    exfalso.
    apply (shows_add_set_iff sets_name None) in Hlt. unfold shows_add_set in Hlt.
    apply existsb_exists in Hlt. destruct Hlt as (c & Hin & Hadd).
    pose proof (find_none _ _ Hfind c Hin) as Hno. congruence.
Qed.

Lemma add_sets_length (sets_name : string) (n : nat) (setsList : list SetValue) :
  (length setsList <= 10)%nat ->
  length (add_sets sets_name n setsList) = Nat.min 10 (length setsList + n).
Proof.
  intros Hle. induction n as [|n IH]; cbn [add_sets]; [lia|].
  rewrite find_add_set.
  destruct (Nat.ltb_spec (length (add_sets sets_name n setsList)) 10) as [Hlt|Hge].
  - cbn [press append_defaultValue]. rewrite length_app. cbn [length]. lia.
  - lia.
Qed.

Example add_set_twelve_times :
  length (add_sets "sets" 12 []) = 10%nat /\
  add_sets "sets" 2 [] = [defaultValue; defaultValue].
Proof. split; reflexivity. Qed.

(** C10.  The exercise fieldset shows "Add set" exactly while the list has
    fewer than ten sets; pressing it appends a set with rir "0", rep range
    "5-8" and empty weight; so a list of at most ten sets stays at most ten
    sets long whatever is done in the panel, and pressing "Add set" again and
    again fills the list up to ten and no further. *)
Theorem add_set_never_exceeds_ten (sets_name : string) (sets_error : option string) :
  (forall setsList,
     shows_add_set (ExerciseFieldset sets_name sets_error setsList) = true <->
     (length setsList < 10)%nat) /\
  (forall setsList c,
     c ∈ ExerciseFieldset sets_name sets_error setsList ->
     press c setsList = setsList \/
     (press c setsList =
        setsList ++ [{| rir := "0"; repRange := "5-8"; weight := EmptyString |}] /\
      (length setsList < 10)%nat)) /\
  (forall a b,
     steps sets_name sets_error a b -> (length a <= 10)%nat -> (length b <= 10)%nat) /\
  (forall n setsList,
     (length setsList <= 10)%nat ->
     length (add_sets sets_name n setsList) = Nat.min 10 (length setsList + n)).
Proof.
  split; [|split; [|split]].
  - apply shows_add_set_iff.
  - apply press_in_panel.
  - apply steps_at_most_ten.
  - intros n setsList. apply add_sets_length.
Qed.

End DesignerProofs.

(** * Further properties of the sign-in route *)
Module SignInMore.
Import Http SignIn SignInProofs.

Section Schema.

Variable is_email : string -> bool.

Lemma head_issues_absent_or_not_text (z : ZodString) (v : FieldValue) :
  (forall s, v <> Text s) -> issues is_email z v <> [].
Proof.
  intros Hv. destruct v as [|s|]; [discriminate|destruct (Hv s eq_refl)|discriminate].
Qed.

Lemma keep_first_empty (name : string) (messages : list string) (e : gmap string string) :
  keep_first name messages e = ∅ -> messages = [] /\ e = ∅.
Proof.
  unfold keep_first. destruct messages as [|m ms]; cbn [head]; [auto|].
  intros H. apply (f_equal (fun m => m !! name)) in H.
  rewrite lookup_insert_eq, lookup_empty in H. discriminate H.
Qed.

(** X1.  A parsed submission has a value exactly when it has no error. *)
Theorem parse_value_iff_no_error (formData : FormData) :
  is_Some (value (parse is_email formData)) <-> error (parse is_email formData) = ∅.
Proof.
  split.
  - intros [c Hc]. apply parse_value_Some in Hc. destruct Hc as (_ & _ & He & Hp).
    unfold parse; cbn [error]. rewrite He, Hp. reflexivity.
  - unfold parse; cbn [error value]. intros H.
    apply keep_first_empty in H. destruct H as [Hp H].
    apply keep_first_empty in H. destruct H as [He _].
    destruct (fd_email formData) as [|e|];
      try (exfalso; revert He; apply head_issues_absent_or_not_text; discriminate).
    destruct (fd_password formData) as [|p|];
      try (exfalso; revert Hp; apply head_issues_absent_or_not_text; discriminate).
    rewrite He, Hp. eexists; reflexivity.
Qed.

End Schema.

Section Answers.

Context {World Session Subscription : Type}.
Variable env : Env World Session Subscription.

(** X5.  The calls of one request, in order: none; or the credential check
    alone; or the credential check, [generateId] and the checkout session;
    or the credential check, the user session and its commit.  So the
    credential check runs at most once and before everything else, and a
    session is committed only right after it was created. *)
Theorem action_call_order (request : Request) (w : World) :
  let calls := trace (action env request (initial w)).2 in
  calls = [] \/
  (exists e p, calls = [EvVerifyLogin e p]) \/
  (exists e p userId userEmail cancelUrl customerId,
     calls = [EvVerifyLogin e p; EvGenerateId;
              EvCreateStripeCheckoutSession userId userEmail cancelUrl customerId]) \/
  (exists e p userId,
     calls = [EvVerifyLogin e p; EvCreateUserSession userId; EvCommitSession]).
Proof.
  cbv zeta.
  destruct (action_cases env request (initial w)) as [H|c Hv Hi Hu|c u Hv Hi Hu Hs|c u sub Hv Hi Hu Hs];
    cbn [fst snd trace initial app].
  - left. reflexivity.
  - right. left. eauto.
  - right. right. left. eexists _, _, _, _, _, _. reflexivity.
  - right. right. right. eauto.
Qed.

End Answers.

End SignInMore.

(** * Further properties of the root error boundary *)
Module RootMore.
Import Root RootProofs.

(** X8.  The boundary logs every error once, a route error response as
    caught and anything else as uncaught, also when it throws.  It throws
    exactly for a route error response with status 500.  Of the documents it
    renders, all titled "Oh no...", the page is "Page not found" exactly for
    a response with status 404, and the page shows status code 500 exactly
    for an error that is not a route error response. *)
Theorem ErrorBoundary_pages (error : RouteError) (pathname : string) :
  let result := ErrorBoundary error pathname in
  result.1 =
    [match error with
     | ErrorResponse _ _ _ => CaughtRouteError error
     | Thrown _ => UncaughtError error
     end] /\
  ((exists message, result.2 = Throws message) <->
   (exists statusText data, error = ErrorResponse 500 statusText data)) /\
  (forall doc,
     result.2 = Rendered doc ->
     doc_title doc = "Oh no..." /\
     (title (doc_children doc) = "Page not found" <->
      exists statusText data, error = ErrorResponse 404 statusText data) /\
     (statusCode (doc_children doc) = 500%Z <-> exists message, error = Thrown message)).
Proof.
  cbv zeta. destruct error as [status statusText data|message].
  - split; [reflexivity|]. rewrite ErrorBoundary_response.
    destruct (Z.eqb_spec status 404) as [-> | H404]; [|destruct (Z.eqb_spec status 500) as [-> | H500]].
    + split.
      * split; [intros [m Hm]; discriminate Hm | intros (t & d & [= ]) ].
      * intros doc [= <-]. split; [reflexivity|]. split.
        -- split; [eauto | reflexivity].
        -- split; [discriminate | intros [m Hm]; discriminate Hm].
    + split.
      * split; [eauto | intros _; eexists; reflexivity].
      * intros doc Hdoc. discriminate Hdoc.
    + split.
      * split; [intros [m Hm]; discriminate Hm | intros (t & d & [= Hs]); contradiction].
      * intros doc [= <-]. split; [reflexivity|]. split.
        -- split; [discriminate | intros (t & d & [= Hs]); contradiction].
        -- split; [intros Hs; contradiction | intros [m Hm]; discriminate Hm].
  - split; [reflexivity|]. split.
    + split; [intros [m Hm]; discriminate Hm | intros (t & d & Hd); discriminate Hd].
    + intros doc [= <-]. split; [reflexivity|]. split.
      * split; [discriminate | intros (t & d & Hd); discriminate Hd].
      * split; [eauto | reflexivity].
Qed.

End RootMore.

(** * Further properties of the exercise fieldset *)
Module DesignerMore.
Import Designer DesignerProofs.

(** X9.  Pressing "Add set" [n] times appends default sets until the list
    has ten entries and then does nothing: a list that already has ten or
    more sets is left exactly as it is, neither extended nor cut. *)
Theorem add_sets_appends_defaults (sets_name : string) (n : nat) (setsList : list SetValue) :
  add_sets sets_name n setsList =
  setsList ++ repeat defaultValue (Nat.min n (10 - length setsList)).
Proof.
  induction n as [|n IH]; cbn [add_sets].
  - cbn [Nat.min repeat]. rewrite app_nil_r. reflexivity.
  - rewrite find_add_set, IH.
    rewrite length_app, repeat_length.
    destruct (Nat.ltb_spec (length setsList + Nat.min n (10 - length setsList)) 10) as [Hlt|Hge].
    + cbn [press append_defaultValue].
      replace (Nat.min (S n) (10 - length setsList)) with (S (Nat.min n (10 - length setsList)))
        by lia.
      rewrite <- app_assoc. f_equal.
      cbn [repeat]. rewrite repeat_cons. reflexivity.
    + replace (Nat.min (S n) (10 - length setsList)) with (Nat.min n (10 - length setsList))
        by lia.
      reflexivity.
Qed.

End DesignerMore.


(** * Properties of the sign-in route on every request *)
Module SignInRouteProofs.
Import Http SignIn SignInProofs SignInRoute.

Lemma list_intent_not_submit (intent : string) :
  is_list_intent intent = true -> intent <> "submit".
Proof. intros H ->. discriminate H. Qed.

Section Route.

Context {World Session Subscription : Type}.
Variable listCommand : string -> FormData -> option FormData.
Variable env : Env World Session Subscription.

(** A form whose intent is no list intent is collected as it is. *)
Lemma collect_plain (formData : FormData) :
  is_list_intent (default "submit" (fd_intent formData)) = false ->
  collect listCommand formData = Returns formData.
Proof. intros H. unfold collect. rewrite H. reflexivity. Qed.

(** [collect] throws only on a list intent. *)
Lemma collect_throws (formData : FormData) :
  collect listCommand formData = Throws ->
  is_list_intent (default "submit" (fd_intent formData)) = true.
Proof.
  unfold collect.
  destruct (is_list_intent (default "submit" (fd_intent formData))); [reflexivity|discriminate].
Qed.

(** The intent goes through [collect] unchanged. *)
Lemma collect_intent (formData payload : FormData) :
  collect listCommand formData = Returns payload ->
  fd_intent payload = fd_intent formData.
Proof.
  unfold collect.
  destruct (is_list_intent (default "submit" (fd_intent formData)));
    [destruct (listCommand _ formData)|]; intros [= <-]; reflexivity.
Qed.

Lemma parse_throws (formData : FormData) :
  parse listCommand env formData = Throws <-> collect listCommand formData = Throws.
Proof. unfold parse. destruct (collect listCommand formData); split; congruence. Qed.

(** What [parse] returns is what the schema makes of the collected
    payload, under the intent of the form. *)
Lemma parse_returns (formData : FormData) (submission : Submission) :
  parse listCommand env formData = Returns submission ->
  collect listCommand formData = Returns (payload submission) /\
  submission = SignIn.parse (is_email env) (payload submission) /\
  intent submission = default "submit" (fd_intent formData).
Proof.
  unfold parse. destruct (collect listCommand formData) as [collected|] eqn:Hc; [|discriminate].
  intros [= <-]. cbn [payload SignIn.parse intent].
  rewrite (collect_intent formData collected Hc). auto.
Qed.

Lemma parse_collected (formData : FormData) (submission : Submission) :
  parse listCommand env formData = Returns submission ->
  exists collected,
    collect listCommand formData = Returns collected /\
    submission = SignIn.parse (is_email env) collected.
Proof.
  unfold parse. destruct (collect listCommand formData) as [collected|]; [|discriminate].
  intros [= <-]. eauto.
Qed.

(** Under the intent [submit] the form is the payload. *)
Lemma parse_submit (formData : FormData) (submission : Submission) :
  parse listCommand env formData = Returns submission ->
  intent submission = "submit" ->
  collect listCommand formData = Returns formData /\
  submission = SignIn.parse (is_email env) formData.
Proof.
  intros Hp Hi. destruct (parse_returns formData submission Hp) as (Hc & Hs & Hintent).
  assert (Hplain : collect listCommand formData = Returns formData).
  { apply collect_plain. rewrite <- Hintent, Hi. reflexivity. }
  rewrite Hplain in Hc. injection Hc as Hc. rewrite <- Hc in Hs. auto.
Qed.

(** When [parse] throws, so does the action, and nothing has happened. *)
Lemma action_throws (request : Request) (st : State World) :
  parse listCommand env (req_formData request) = Throws ->
  action listCommand env request st = (Throws, st).
Proof. intros H. unfold action, bind, lift; cbn [fst snd]. rewrite H. reflexivity. Qed.

(** A submission without a value, or with another intent than [submit],
    comes back with status 400, and nothing has happened. *)
Lemma action_rejected (request : Request) (st : State World) (submission : Submission) :
  parse listCommand env (req_formData request) = Returns submission ->
  value submission = None \/ intent submission <> "submit" ->
  action listCommand env request st = (Returns (json submission (with_status 400)), st).
Proof.
  intros Hp H. unfold action, bind, lift; cbn [fst snd]. rewrite Hp.
  destruct (value submission) as [c|]; [|reflexivity].
  destruct H as [H|H]; [discriminate H|].
  apply String.eqb_neq in H. rewrite H. reflexivity.
Qed.

(** On a form that [parse] collects as it is, the action does what
    [SignIn.action] does, and returns. *)
Lemma action_plain (request : Request) (st : State World) :
  collect listCommand (req_formData request) = Returns (req_formData request) ->
  action listCommand env request st =
    (Returns (SignIn.action env request st).1, (SignIn.action env request st).2).
Proof.
  intros Hc. unfold action, SignIn.action, parse. rewrite Hc.
  unfold bind, lift; cbn [fst snd].
  destruct (value (SignIn.parse (is_email env) (req_formData request))) as [c|]; [|reflexivity].
  destruct (negb (String.eqb (intent (SignIn.parse (is_email env) (req_formData request)))
                             "submit")); [reflexivity|].
  unfold SignIn.bind, SignIn.call, SignIn.ret, call, ret, bind; cbn [fst snd].
  destruct ((verifyLogin env (email c) (password c) (world st)).1) as [user|]; [|reflexivity].
  destruct (user_subscription user); reflexivity.
Qed.

(** In particular whenever the intent is no list intent, [submit]
    included. *)
Lemma action_without_list_intent (request : Request) (st : State World) :
  is_list_intent (default "submit" (fd_intent (req_formData request))) = false ->
  action listCommand env request st =
    (Returns (SignIn.action env request st).1, (SignIn.action env request st).2).
Proof. intros H. apply action_plain, collect_plain, H. Qed.

(** Every run of the action: [parse] throws and the action with it; or the
    submission is turned down before the credential check; or the form is
    a valid submission with the intent [submit], and the action goes on as
    [SignIn.action] does. *)
Lemma action_outcomes (request : Request) (st : State World) :
  (parse listCommand env (req_formData request) = Throws /\
   is_list_intent (default "submit" (fd_intent (req_formData request))) = true /\
   action listCommand env request st = (Throws, st))
  \/
  (exists submission,
     parse listCommand env (req_formData request) = Returns submission /\
     (value submission = None \/ intent submission <> "submit") /\
     action listCommand env request st = (Returns (json submission (with_status 400)), st))
  \/
  (exists c,
     parse listCommand env (req_formData request) =
       Returns (SignIn.parse (is_email env) (req_formData request)) /\
     value (SignIn.parse (is_email env) (req_formData request)) = Some c /\
     intent (SignIn.parse (is_email env) (req_formData request)) = "submit" /\
     action listCommand env request st =
       (Returns (SignIn.action env request st).1, (SignIn.action env request st).2)).
Proof.
  destruct (parse listCommand env (req_formData request)) as [submission|] eqn:Hp.
  - destruct (value submission) as [c|] eqn:Hv.
    + destruct (String.eqb_spec (intent submission) "submit") as [Hi|Hi].
      * right. right. destruct (parse_submit _ _ Hp Hi) as [Hc Hs]. subst submission.
        exists c. split; [reflexivity|]. split; [exact Hv|]. split; [exact Hi|].
        apply action_plain. exact Hc.
      * right. left. exists submission. split; [reflexivity|]. split; [right; exact Hi|].
        apply action_rejected; [exact Hp | right; exact Hi].
    + right. left. exists submission. split; [reflexivity|]. split; [left; exact Hv|].
      apply action_rejected; [exact Hp | left; exact Hv].
  - left. split; [reflexivity|]. split.
    + apply collect_throws. apply parse_throws in Hp. exact Hp.
    + apply action_throws. exact Hp.
Qed.




Lemma answers_json_400 (submission : Submission) :
  answers 400 (Returns (json submission (with_status 400))).
Proof. eexists. split; reflexivity. Qed.

(** C5 (amended).  For every sign-in submission on which [parse] does not
    throw and that fails schema validation, or whose intent is not
    [submit], the action returns status 400 and the submission as parsed;
    the submission carries the first message of each failing field of its
    payload under the field's name and nothing under any other key; no
    collaborator is called and the state is left as it was.  The payload is
    the form as submitted unless the intent is a list intent. *)
Theorem action_rejects_parsed_submission (request : Request) (st : State World)
    (submission : Submission) :
  parse listCommand env (req_formData request) = Returns submission ->
  value submission = None \/ intent submission <> "submit" ->
  action listCommand env request st = (Returns (json submission (with_status 400)), st) /\
  answers 400 (action listCommand env request st).1 /\
  error submission !! "email" =
    head (issues (is_email env) schema_email (fd_email (payload submission))) /\
  error submission !! "password" =
    head (issues (is_email env) schema_password (fd_password (payload submission))) /\
  (forall key, key <> "email" -> key <> "password" -> error submission !! key = None) /\
  (value submission = None ->
   is_Some (error submission !! "email") \/ is_Some (error submission !! "password")) /\
  (is_list_intent (default "submit" (fd_intent (req_formData request))) = false ->
   payload submission = req_formData request).
Proof.
  intros Hp H. rewrite (action_rejected request st submission Hp H).
  destruct (parse_collected _ _ Hp) as (collected & Hc & ->).
  split; [reflexivity|]. split; [apply answers_json_400|].
  cbn [payload SignIn.parse].
  split; [apply parse_error_email|]. split; [apply parse_error_password|].
  split; [intros key; apply parse_error_other|].
  split; [apply parse_value_None|].
  intros Hplain. rewrite (collect_plain _ Hplain) in Hc. injection Hc as Hc.
  symmetry. exact Hc.
Qed.



(** X6.  A 400 answer hands the submission back with the payload [parse]
    collected, the password field included; unless the intent is a list
    intent, that is the form exactly as it was submitted.  A redirect has
    no body. *)
Theorem action_returns_payload (request : Request) (w : World) :
  match (action listCommand env request (initial w)).1 with
  | Throws => collect listCommand (req_formData request) = Throws
  | Returns response =>
      (is_redirect response = true /\ body response = None) \/
      (status response = 400%Z /\
       (exists collected,
          collect listCommand (req_formData request) = Returns collected /\
          payload <$> body response = Some collected /\
          (fd_password ∘ payload) <$> body response = Some (fd_password collected)) /\
       (is_list_intent (default "submit" (fd_intent (req_formData request))) = false ->
        payload <$> body response = Some (req_formData request)))
  end.
Proof.
  destruct (action_outcomes request (initial w))
    as [(Hp & Hl & Ha)|[(submission & Hp & Hrej & Ha)|(c & Hp & Hv & Hi & Ha)]];
    rewrite Ha; cbn [fst snd].
  - apply parse_throws in Hp. exact Hp.
  - right. split; [reflexivity|].
    destruct (parse_collected _ _ Hp) as (collected & Hc & ->). split.
    + exists collected. repeat split. exact Hc.
    + intros Hplain. rewrite (collect_plain _ Hplain) in Hc. injection Hc as <-. reflexivity.
  - assert (Hc : collect listCommand (req_formData request) = Returns (req_formData request)).
    { apply collect_plain. change (default "submit" (fd_intent (req_formData request)))
        with (intent (SignIn.parse (is_email env) (req_formData request))).
      rewrite Hi. reflexivity. }
    destruct (action_cases env request (initial w)) as [H|c' Hv' Hi' Hu|c' u Hv' Hi' Hu Hs|c' u sub Hv' Hi' Hu Hs];
      cbn [fst snd].
    + right. split; [reflexivity|]. split; [|reflexivity].
      exists (req_formData request). repeat split. exact Hc.
    + right. split; [reflexivity|]. split; [|reflexivity].
      exists (req_formData request). repeat split. exact Hc.
    + left. split; reflexivity.
    + left. split; reflexivity.
Qed.

End Route.

Section Messages.

Variable is_email : string -> bool.

(** What the schema reports for what the payload holds under [email]. *)
Lemma schema_email_message (formData : FormData) :
  error (SignIn.parse is_email formData) !! "email" =
    match fd_email formData with
    | Absent => Some "Email is required."
    | NotText => Some "Email is not valid."
    | Text s =>
        if (js_length s =? 0)%nat then Some "Email is required."
        else if (254 <? js_length s)%nat
             then Some "Email must be at most 254 characters long."
             else if is_email s then None else Some "Email is not valid."
    end.
Proof.
  rewrite parse_error_email.
  destruct (fd_email formData) as [|s|]; [reflexivity| |reflexivity].
  unfold issues.
  change (checks schema_email)
    with [CMin 1 "Email is required.";
          CMax 254 "Email must be at most 254 characters long.";
          CEmail "Email is not valid."].
  cbn [List.filter check_ok].
  destruct (Nat.leb_spec 1 (js_length s)) as [H1|H1];
    destruct (Nat.leb_spec (js_length s) 254) as [H2|H2];
    destruct (Nat.eqb_spec (js_length s) 0) as [H3|H3];
    destruct (Nat.ltb_spec 254 (js_length s)) as [H4|H4];
    try lia; destruct (is_email s); reflexivity.
Qed.

Lemma schema_password_message (formData : FormData) :
  error (SignIn.parse is_email formData) !! "password" =
    match fd_password formData with
    | Absent => Some "Password is required."
    | NotText => Some "Password is not valid."
    | Text s =>
        if (js_length s <? 8)%nat
        then Some "Password must be at least 8 characters long."
        else if (128 <? js_length s)%nat
             then Some "Password must be at most 128 characters long."
             else None
    end.
Proof.
  rewrite parse_error_password.
  destruct (fd_password formData) as [|s|]; [reflexivity| |reflexivity].
  unfold issues.
  change (checks schema_password)
    with [CMin 8 "Password must be at least 8 characters long.";
          CMax 128 "Password must be at most 128 characters long."].
  cbn [List.filter check_ok].
  destruct (Nat.leb_spec 8 (js_length s)) as [H1|H1];
    destruct (Nat.leb_spec (js_length s) 128) as [H2|H2];
    destruct (Nat.ltb_spec (js_length s) 8) as [H3|H3];
    destruct (Nat.ltb_spec 128 (js_length s)) as [H4|H4];
    try lia; reflexivity.
Qed.

End Messages.

Section Parsed.

Context {World Session Subscription : Type}.
Variable listCommand : string -> FormData -> option FormData.
Variable env : Env World Session Subscription.

(** X2.  The message a parsed submission has for the email is decided, by
    priority, by what its payload holds under [email]: "Email is
    required." for nothing or the empty string; the length message for a
    string of more than 254 UTF-16 code units, well formed or not; "Email
    is not valid." for what is not a string, and for a string within the
    length bounds that is not well formed; none otherwise.  Unless the
    intent is a list intent, the payload holds what the form holds. *)
Theorem email_error_message (formData : FormData) (submission : Submission) :
  parse listCommand env formData = Returns submission ->
  error submission !! "email" =
    match fd_email (payload submission) with
    | Absent => Some "Email is required."
    | NotText => Some "Email is not valid."
    | Text s =>
        if (js_length s =? 0)%nat then Some "Email is required."
        else if (254 <? js_length s)%nat
             then Some "Email must be at most 254 characters long."
             else if is_email env s then None else Some "Email is not valid."
    end /\
  (is_list_intent (default "submit" (fd_intent formData)) = false ->
   fd_email (payload submission) = fd_email formData).
Proof.
  intros Hp. destruct (parse_collected listCommand env _ _ Hp) as (collected & Hc & ->).
  split; [apply schema_email_message|].
  intros Hplain. rewrite (collect_plain listCommand _ Hplain) in Hc. injection Hc as <-.
  reflexivity.
Qed.

(** X3.  The message a parsed submission has for the password is decided
    by what its payload holds under [password]: "Password is required."
    for nothing, "Password is not valid." for what is not a string, the
    minimum message for a string under 8 UTF-16 code units (the empty
    string included), the maximum message over 128, and none for any string
    of 8 to 128 code units, whatever it contains.  Unless the intent is a
    list intent, the payload holds what the form holds. *)
Theorem password_error_message (formData : FormData) (submission : Submission) :
  parse listCommand env formData = Returns submission ->
  error submission !! "password" =
    match fd_password (payload submission) with
    | Absent => Some "Password is required."
    | NotText => Some "Password is not valid."
    | Text s =>
        if (js_length s <? 8)%nat
        then Some "Password must be at least 8 characters long."
        else if (128 <? js_length s)%nat
             then Some "Password must be at most 128 characters long."
             else None
    end /\
  (is_list_intent (default "submit" (fd_intent formData)) = false ->
   fd_password (payload submission) = fd_password formData).
Proof.
  intros Hp. destruct (parse_collected listCommand env _ _ Hp) as (collected & Hc & ->).
  split; [apply schema_password_message|].
  intros Hplain. rewrite (collect_plain listCommand _ Hplain) in Hc. injection Hc as <-.
  reflexivity.
Qed.

End Parsed.

Section SideEffects.

Context {World Session Subscription : Type}.
Variable listCommand : string -> FormData -> option FormData.
Variable lookup : string -> string -> World -> option (User Subscription).
Variable env0 : Env World Session Subscription.


End SideEffects.

(** *** The whole route on the concrete deployment *)

(** C5, as stated, fails.  The intent is not [submit]: it is a list intent
    that names the email field, which holds a text.  [parse] throws, so the
    action returns no response at all. *)
Lemma list_intent_on_text_email_throws :
  let request := Demo.form (Some "list/append/email/{}") "ada@example.com" "correct horse" in
  let run := action Demo.listCommand Demo.env request (initial 0%nat) in
  default "submit" (fd_intent (req_formData request)) <> "submit" /\
  run = (Throws, initial 0%nat) /\
  ~ answers 400 run.1.
Proof.
  cbv zeta. split; [discriminate|]. split; [vm_compute; reflexivity|].
  intros (response & H & _). vm_compute in H. discriminate H.
Qed.


(** A password of seven Chinese characters is seven long, not twenty-one,
    and too short. *)
Example seven_characters_are_too_short :
  js_length "密码密码密码密" = 7%nat /\
  error (SignIn.parse Demo.has_at_sign
           {| fd_intent := None;
              fd_email := Text "ada@example.com";
              fd_password := Text "密码密码密码密" |}) !! "password" =
    Some "Password must be at least 8 characters long.".
Proof. split; vm_compute; reflexivity. Qed.

Lemma action_rejects_parsed_submission_witness :
  let request :=
    {| req_formData :=
         {| fd_intent := Some "list/append/email/{}";
            fd_email := Absent;
            fd_password := Text "correct horse" |};
       req_cookie := None |} in
  let submission :=
    SignIn.parse Demo.has_at_sign
      {| fd_intent := Some "list/append/email/{}";
         fd_email := NotText;
         fd_password := Text "correct horse" |} in
  parse Demo.listCommand Demo.env (req_formData request) = Returns submission /\
  intent submission <> "submit" /\
  action Demo.listCommand Demo.env request (initial 0%nat) =
    (Returns (json submission (with_status 400)), initial 0%nat) /\
  error submission !! "email" = Some "Email is not valid." /\
  error submission !! "password" = None.
Proof.
  cbv zeta.
  assert (Hp : parse Demo.listCommand Demo.env
                 {| fd_intent := Some "list/append/email/{}";
                    fd_email := Absent;
                    fd_password := Text "correct horse" |} =
               Returns (SignIn.parse Demo.has_at_sign
                          {| fd_intent := Some "list/append/email/{}";
                             fd_email := NotText;
                             fd_password := Text "correct horse" |}))
    by (vm_compute; reflexivity).
  assert (Hi : intent (SignIn.parse Demo.has_at_sign
                          {| fd_intent := Some "list/append/email/{}";
                             fd_email := NotText;
                             fd_password := Text "correct horse" |}) <> "submit")
    by discriminate.
  split; [exact Hp|]. split; [exact Hi|].
  destruct (action_rejects_parsed_submission Demo.listCommand Demo.env
              {| req_formData :=
                   {| fd_intent := Some "list/append/email/{}";
                      fd_email := Absent;
                      fd_password := Text "correct horse" |};
                 req_cookie := None |}
              (initial 0%nat) _ Hp (or_intror Hi))
    as (Ha & _ & He & Hpw & _).
  split; [exact Ha|]. split; [rewrite He; vm_compute; reflexivity | rewrite Hpw; vm_compute; reflexivity].
Defined.

Lemma email_error_message_witness :
  let formData :=
    {| fd_intent := Some "list/append/email/{}";
       fd_email := Absent;
       fd_password := Text "correct horse" |} in
  let submission :=
    SignIn.parse Demo.has_at_sign
      {| fd_intent := Some "list/append/email/{}";
         fd_email := NotText;
         fd_password := Text "correct horse" |} in
  parse Demo.listCommand Demo.env formData = Returns submission /\
  error submission !! "email" = Some "Email is not valid.".
Proof.
  cbv zeta.
  assert (Hp : parse Demo.listCommand Demo.env
                 {| fd_intent := Some "list/append/email/{}";
                    fd_email := Absent;
                    fd_password := Text "correct horse" |} =
               Returns (SignIn.parse Demo.has_at_sign
                          {| fd_intent := Some "list/append/email/{}";
                             fd_email := NotText;
                             fd_password := Text "correct horse" |}))
    by (vm_compute; reflexivity).
  split; [exact Hp|].
  destruct (email_error_message Demo.listCommand Demo.env _ _ Hp) as [He _].
  rewrite He. reflexivity.
Defined.

Lemma password_error_message_witness :
  let formData :=
    {| fd_intent := None;
       fd_email := Text "ada@example.com";
       fd_password := Text "密码密码密码密" |} in
  parse Demo.listCommand Demo.env formData = Returns (SignIn.parse Demo.has_at_sign formData) /\
  error (SignIn.parse Demo.has_at_sign formData) !! "password" =
    Some "Password must be at least 8 characters long.".
Proof.
  cbv zeta.
  assert (Hp : parse Demo.listCommand Demo.env
                 {| fd_intent := None;
                    fd_email := Text "ada@example.com";
                    fd_password := Text "密码密码密码密" |} =
               Returns (SignIn.parse Demo.has_at_sign
                          {| fd_intent := None;
                             fd_email := Text "ada@example.com";
                             fd_password := Text "密码密码密码密" |}))
    by reflexivity.
  split; [exact Hp|].
  destruct (password_error_message Demo.listCommand Demo.env _ _ Hp) as [He _].
  rewrite He. reflexivity.
Defined.

End SignInRouteProofs.
